(** * Example notebooks of llama_index: a verification development

    The notebooks under [docs/examples] call the library's public API.  The
    code they define themselves is small: three helper functions of the query
    transformation cookbook ([generate_queries], [execute_sql], [add]) and a
    prompt viewer.  This file embeds

    - Python's [str.split] and [str.join] as [generate_queries] uses them,
    - the cookbook's helper functions, with the text written to standard
      output threaded explicitly,
    - a model of the directory reader and of the ingestion pipeline that the
      Redis ingestion notebook drives,
    - the code cells of the three notebooks as lists of operations. *)

From Stdlib Require Import ZArith Ascii String.
From stdpp Require Import gmap strings list fin_maps.


(** ** Python strings *)

Module PyStr.

(** The line feed, Python's ["\n"]. *)
Definition LF : ascii := ascii_of_nat 10.
Definition newline : string := String LF EmptyString.

(** [s.split(sep)] for a separator of one character: every occurrence of
    the separator ends a piece, so the empty string gives one empty
    piece. *)
Fixpoint split (sep : ascii) (s : string) : list string :=
  match s with
  | EmptyString => [EmptyString]
  | String c rest =>
      if Ascii.eqb c sep then EmptyString :: split sep rest
      else match split sep rest with
           | piece :: pieces => String c piece :: pieces
           | [] => [String c EmptyString]
           end
  end.

(** [sep.join(pieces)]. *)
Fixpoint join (sep : string) (pieces : list string) : string :=
  match pieces with
  | [] => EmptyString
  | [piece] => piece
  | piece :: more => piece +:+ sep +:+ join sep more
  end.

(** Number of occurrences of a character, [s.count(c)]. *)
Fixpoint count (c : ascii) (s : string) : nat :=
  match s with
  | EmptyString => 0
  | String c' rest => (if Ascii.eqb c' c then 1 else 0) + count c rest
  end.

Lemma split_cons sep s : ∃ piece pieces, split sep s = piece :: pieces.
Proof.
  induction s as [|c rest [p [ps IH]]]; simpl; [by eauto|].
  destruct (Ascii.eqb c sep); [by eauto|]. rewrite IH. by eauto.
Qed.

Lemma split_nonempty sep s : split sep s ≠ [].
Proof. destruct (split_cons sep s) as (p & ps & ->). done. Qed.

Lemma join_cons_cons sep p q more :
  join sep (p :: q :: more) = p +:+ sep +:+ join sep (q :: more).
Proof. reflexivity. Qed.

Lemma join_split sep s : join (String sep EmptyString) (split sep s) = s.
Proof.
  induction s as [|c rest IH]; [done|]. simpl split.
  destruct (Ascii.eqb_spec c sep) as [->|Hne].
  - destruct (split_cons sep rest) as (p & ps & Hs).
    rewrite Hs, join_cons_cons, <- Hs, IH. reflexivity.
  - destruct (split_cons sep rest) as (p & ps & Hs).
    rewrite Hs in IH |- *. destruct ps as [|q more].
    + simpl in *. by rewrite IH.
    + rewrite join_cons_cons in IH |- *. simpl. by rewrite <- IH.
Qed.

Lemma length_split sep s : length (split sep s) = S (count sep s).
Proof.
  induction s as [|c rest IH]; [done|]. simpl.
  destruct (Ascii.eqb c sep); simpl; [by rewrite IH|].
  destruct (split_cons sep rest) as (p & ps & Hs).
  rewrite Hs in IH |- *. exact IH.
Qed.

End PyStr.

(** ** The query transformation cookbook

    [docs/examples/query_transformations/query_transform_cookbook.ipynb]
    defines [generate_queries], [execute_sql] and [add].  [generate_queries]
    prints, so the functions live in a small output monad: a computation
    takes the text written to standard output so far and gives its result
    with the text written after it. *)

Module Cookbook.
Import PyStr.

Definition Py (A : Type) : Type := string → A * string.

Definition ret {A} (a : A) : Py A := λ out, (a, out).

Definition bind {A B} (m : Py A) (k : A → Py B) : Py B :=
  λ out, let '(a, out') := m out in k a out'.

(** [print(s)]: the text and a line feed are appended to the output. *)
Definition print (s : string) : Py unit := λ out, (tt, out +:+ s +:+ newline).

(** [m >>> k]: the statement [m], then [k]. *)
Definition seq {A B} (m : Py A) (k : Py B) : Py B := bind m (λ _, k).
Infix ">>>" := seq (at level 61, left associativity).

(** [PromptTemplate(query_gen_str)]. *)
Record PromptTemplate := { template : string }.

Definition query_gen_str : string :=
  "You are a helpful assistant that generates multiple search queries based on a single input query. Generate {num_queries} search queries, one on each line, related to the following input query:"
  +:+ newline +:+ "Query: {query}" +:+ newline +:+ "Queries:" +:+ newline.

Definition query_gen_prompt : PromptTemplate := {| template := query_gen_str |}.

(** The language model is the caller's argument.  [generate_queries] asks it
    once, [llm.predict(prompt, num_queries=..., query=...)], and the answer is
    any string: a model is the function giving the answer to that call. *)
Record LLM := { predict : PromptTemplate → Z → string → string }.

(** A model that answers [r] to every request. *)
Definition canned (r : string) : LLM := {| predict := λ _ _ _, r |}.

Definition generate_queries (query : string) (llm : LLM) (num_queries : Z)
  : Py (list string) :=
  let response := predict llm query_gen_prompt num_queries query in
  (* assume LLM proper put each query on a newline *)
  let queries := split LF response in
  let queries_str := join newline queries in
  print ("Generated queries:" +:+ newline +:+ queries_str) >>>
  ret queries.

(** [num_queries: int = 4]. *)
Definition generate_queries_default (query : string) (llm : LLM)
  : Py (list string) :=
  generate_queries query llm 4.

(** NOTE: This is a mock function. *)
Definition execute_sql (sql : string) : Py string :=
  ret ("Executed " +:+ sql).

Definition add (a b : Z) : Py Z :=
  ret (a + b)%Z.

(** *** What [generate_queries] prints and returns *)

Example split_two_lines :
  split LF ("1. a" +:+ newline +:+ "2. b") = ["1. a"; "2. b"].
Proof. reflexivity. Qed.

Example split_trailing_newline :
  split LF ("a" +:+ newline) = ["a"; ""].
Proof. reflexivity. Qed.

Example split_empty : split LF "" = [""].
Proof. reflexivity. Qed.

(** Asked for four queries, a model that writes two lines gives two. *)
Example num_queries_not_enforced :
  (generate_queries "q" (canned ("a" +:+ newline +:+ "b")) 4 "").1 = ["a"; "b"].
Proof. reflexivity. Qed.

(** C8: splitting the response on line feeds and joining the pieces with
    line feeds gives the response back, for every string; so the text
    [generate_queries] prints after its heading is the model's response,
    character for character. *)
Theorem generate_queries_prints_response query llm num_queries out :
  (∀ s, join newline (split LF s) = s) ∧
  (generate_queries query llm num_queries out).2 =
    out +:+ ("Generated queries:" +:+ newline
             +:+ predict llm query_gen_prompt num_queries query) +:+ newline.
Proof.
  split; [intros s; apply join_split|].
  unfold generate_queries, seq, bind, print, ret; simpl.
  by rewrite (join_split LF).
Qed.

(** C10: [add] returns the sum of its arguments and [execute_sql] the text
    ["Executed "] followed by its argument; both return for every argument
    and leave the output as it was. *)
Theorem tools_pure_total (a b : Z) (sql : string) (out : string) :
  add a b out = ((a + b)%Z, out) ∧
  execute_sql sql out = ("Executed " +:+ sql, out).
Proof. split; reflexivity. Qed.

End Cookbook.

(** ** The Redis ingestion notebook

    [docs/examples/ingestion/redis_ingestion_pipeline.ipynb] loads a
    directory with [SimpleDirectoryReader(..., filename_as_id=True)] and
    runs an [IngestionPipeline] with a sentence splitter, an embedding
    model, a document store, a vector store and
    [DocstoreStrategy.UPSERTS].  The reader and the pipeline are library
    classes whose code is not among the notebooks. *)

Module Ingestion.

(** A directory: the content of each file, by file name. *)
Abbreviation Directory := (gmap string string).

(** Modelled from the spec: a document, a data shape of the library, as far
    as the notebook uses it: an identifier and a text. *)
Record Document := { doc_id : string; text : string }.

(** Modelled from the spec: [SimpleDirectoryReader.load_data], of which the
    notebooks hold only the call, is "a document loader that reads files from
    a directory and assigns deterministic identifiers"; the notebook asks for
    them with [filename_as_id=True] ("load documents with deterministic
    IDs").  One document per file, with the file's content; its identifier is
    the file name when [filename_as_id] is set.  [fresh] stands for what may
    differ from one invocation to the next (the identifiers an invocation
    would draw otherwise, numbered by position). *)
Definition load_data (filename_as_id : bool) (fresh : nat → string)
    (dir : Directory) : list Document :=
  imap (λ i file,
          {| doc_id := if filename_as_id then file.1 else fresh i;
             text := file.2 |})
       (map_to_list dir).

Section Pipeline.

(** The transformations handed to the pipeline: [SentenceSplitter()], which
    chunks a text, and the embedding model, which maps a text to a vector. *)
Context {Vec : Type}.
Variable split_text : string → list string.
Variable embed : string → Vec.

(** Modelled from the spec: a node is "a chunk of a source document"; it
    carries the identifier of the document it comes from and the vector of
    the embedding model. *)
Record Node := { ref_doc_id : string; node_text : string; embedding : Vec }.

(** Modelled from the spec: the pluggable document store and vector store.
    The document store keeps the content ingested under each document
    identifier; the vector store (the index) keeps the nodes.  The cache,
    of which the spec gives the name only, is not modelled. *)
Record Stores := { docstore : gmap string string; vector_store : list Node }.

Definition empty_stores : Stores := {| docstore := ∅; vector_store := [] |}.

(** Modelled from the spec: transform and embed, the nodes derived from a
    document. *)
Definition nodes_of (d : Document) : list Node :=
  (λ chunk, {| ref_doc_id := doc_id d; node_text := chunk;
               embedding := embed chunk |}) <$> split_text (text d).

Inductive Status := Unmodified | Modified | Added.

(** Modelled from the spec: deduplication.  A document is compared with what
    the document store holds under its identifier. *)
Definition classify (st : Stores) (d : Document) : Status :=
  match docstore st !! doc_id d with
  | None => Added
  | Some old => if decide (old = text d) then Unmodified else Modified
  end.

(** The nodes stored under a document identifier, and the store without
    them. *)
Definition nodes_under (id : string) (vs : list Node) : list Node :=
  filter (λ n, ref_doc_id n = id) vs.

Definition delete_ref_doc (id : string) (vs : list Node) : list Node :=
  filter (λ n, ref_doc_id n ≠ id) vs.

(** Modelled from the spec: [IngestionPipeline.run] with
    [DocstoreStrategy.UPSERTS], of which the notebooks hold only the
    configuration and the calls, is "an ingestion pipeline that transforms,
    embeds, deduplicates, and upserts nodes", where "unmodified content is
    neither re-embedded nor duplicated and modified content replaces its
    prior entry".  For one document: unmodified content is skipped; modified
    content has its prior nodes deleted and its new nodes stored; a new
    document has its nodes stored.  The result is the nodes ingested and the
    stores after. *)
Definition upsert (st : Stores) (d : Document) : list Node * Stores :=
  match classify st d with
  | Unmodified => ([], st)
  | Modified =>
      (nodes_of d,
       {| docstore := <[doc_id d := text d]> (docstore st);
          vector_store := delete_ref_doc (doc_id d) (vector_store st) ++ nodes_of d |})
  | Added =>
      (nodes_of d,
       {| docstore := <[doc_id d := text d]> (docstore st);
          vector_store := vector_store st ++ nodes_of d |})
  end.

(** Modelled from the spec: [pipeline.run(documents=documents)], the
    documents upserted in order; the nodes ingested are returned. *)
Fixpoint run (st : Stores) (documents : list Document) : list Node * Stores :=
  match documents with
  | [] => ([], st)
  | d :: rest =>
      let '(nodes, st1) := upsert st d in
      let '(more, st2) := run st1 rest in
      (nodes ++ more, st2)
  end.

(** What a run leaves alone under an identifier it does not meet. *)
Definition untouched (id : string) (st : Stores) (r : list Node * Stores) : Prop :=
  docstore r.2 !! id = docstore st !! id ∧
  nodes_under id (vector_store r.2) = nodes_under id (vector_store st) ∧
  nodes_under id r.1 = [].

(** What a run does under the identifier of a document it ingests,
    by the document's status before the run. *)
Definition ingested (s : Status) (st : Stores) (d : Document)
    (r : list Node * Stores) : Prop :=
  docstore r.2 !! doc_id d = Some (text d) ∧
  match s with
  | Unmodified =>
      nodes_under (doc_id d) r.1 = [] ∧
      nodes_under (doc_id d) (vector_store r.2)
        = nodes_under (doc_id d) (vector_store st)
  | Modified =>
      nodes_under (doc_id d) r.1 = nodes_of d ∧
      nodes_under (doc_id d) (vector_store r.2) = nodes_of d
  | Added =>
      nodes_under (doc_id d) r.1 = nodes_of d ∧
      nodes_under (doc_id d) (vector_store r.2)
        = nodes_under (doc_id d) (vector_store st) ++ nodes_of d
  end.

(** *** Facts about [upsert] and [run] *)

Lemma ref_doc_id_nodes_of d n : n ∈ nodes_of d → ref_doc_id n = doc_id d.
Proof. unfold nodes_of. by intros (chunk & -> & _)%list_elem_of_fmap. Qed.

Lemma nodes_under_nodes_of d : nodes_under (doc_id d) (nodes_of d) = nodes_of d.
Proof.
  unfold nodes_under, nodes_of.
  induction (split_text (text d)) as [|chunk chunks IH]; [done|].
  rewrite fmap_cons, filter_cons_True by done. by f_equal.
Qed.

Lemma nodes_under_nodes_of_ne id d :
  doc_id d ≠ id → nodes_under id (nodes_of d) = [].
Proof.
  intros Hne. unfold nodes_under, nodes_of.
  induction (split_text (text d)) as [|chunk chunks IH]; [done|].
  by rewrite fmap_cons, filter_cons_False.
Qed.

Lemma nodes_under_delete_eq id vs : nodes_under id (delete_ref_doc id vs) = [].
Proof.
  unfold nodes_under, delete_ref_doc.
  induction vs as [|n vs IH]; [done|].
  rewrite (filter_cons (λ n, ref_doc_id n ≠ id)). case_decide; [|done].
  by rewrite filter_cons_False.
Qed.

Lemma nodes_under_delete_ne id id' vs :
  id ≠ id' → nodes_under id (delete_ref_doc id' vs) = nodes_under id vs.
Proof.
  intros Hne. unfold nodes_under, delete_ref_doc.
  induction vs as [|n vs IH]; [done|].
  rewrite (filter_cons (λ n, ref_doc_id n ≠ id')).
  rewrite (filter_cons (λ n, ref_doc_id n = id)).
  repeat case_decide; try congruence.
  - by rewrite filter_cons_True, IH.
  - by rewrite filter_cons_False.
Qed.

Lemma nodes_under_app id vs1 vs2 :
  nodes_under id (vs1 ++ vs2) = nodes_under id vs1 ++ nodes_under id vs2.
Proof. apply filter_app. Qed.

Lemma nodes_under_nil_iff id vs :
  nodes_under id vs = [] ↔ ∀ n, n ∈ vs → ref_doc_id n ≠ id.
Proof.
  unfold nodes_under. split.
  - intros Hnil n Hn Hid. by eapply (filter_nil_not_elem_of _ vs n).
  - intros Hall. induction vs as [|n vs IH]; [done|].
    rewrite filter_cons_False by (apply Hall; left).
    apply IH. intros m Hm. apply Hall. by right.
Qed.

Lemma length_nodes_of d : length (nodes_of d) = length (split_text (text d)).
Proof. unfold nodes_of. apply length_fmap. Qed.

Lemma delete_ref_doc_app id vs1 vs2 :
  delete_ref_doc id (vs1 ++ vs2) = delete_ref_doc id vs1 ++ delete_ref_doc id vs2.
Proof. apply filter_app. Qed.

Lemma delete_ref_doc_nodes_of d : delete_ref_doc (doc_id d) (nodes_of d) = [].
Proof.
  unfold delete_ref_doc, nodes_of.
  induction (split_text (text d)) as [|chunk chunks IH]; [done|].
  rewrite fmap_cons, filter_cons_False; [done|]. by intros [].
Qed.

Lemma delete_ref_doc_nodes_of_ne id d :
  doc_id d ≠ id → delete_ref_doc id (nodes_of d) = nodes_of d.
Proof.
  intros Hne. unfold delete_ref_doc, nodes_of.
  induction (split_text (text d)) as [|chunk chunks IH]; [done|].
  rewrite fmap_cons, filter_cons_True by done. by f_equal.
Qed.

Lemma upsert_added st d :
  docstore st !! doc_id d = None →
  upsert st d =
    (nodes_of d,
     {| docstore := <[doc_id d := text d]> (docstore st);
        vector_store := vector_store st ++ nodes_of d |}).
Proof. intros Hds. unfold upsert, classify. by rewrite Hds. Qed.

Lemma upsert_unmodified st d :
  docstore st !! doc_id d = Some (text d) → upsert st d = ([], st).
Proof. intros Hds. unfold upsert, classify. by rewrite Hds, decide_True. Qed.

Lemma upsert_modified st d old :
  docstore st !! doc_id d = Some old → old ≠ text d →
  upsert st d =
    (nodes_of d,
     {| docstore := <[doc_id d := text d]> (docstore st);
        vector_store :=
          delete_ref_doc (doc_id d) (vector_store st) ++ nodes_of d |}).
Proof. intros Hds Hne. unfold upsert, classify. by rewrite Hds, decide_False. Qed.

Lemma classify_frame st st' d :
  docstore st' !! doc_id d = docstore st !! doc_id d →
  classify st' d = classify st d.
Proof. unfold classify. by intros ->. Qed.

Lemma run_cons st d rest :
  run st (d :: rest) =
    ((upsert st d).1 ++ (run (upsert st d).2 rest).1,
     (run (upsert st d).2 rest).2).
Proof. simpl. by destruct (upsert st d), (run _ rest). Qed.

Lemma upsert_other st d id : doc_id d ≠ id → untouched id st (upsert st d).
Proof.
  intros Hne. unfold untouched, upsert.
  destruct (classify st d); simpl; [done|..];
    rewrite lookup_insert_ne, nodes_under_app, nodes_under_nodes_of_ne,
      app_nil_r by done; [|done].
  by rewrite nodes_under_delete_ne.
Qed.

Lemma run_other st documents id :
  id ∉ doc_id <$> documents → untouched id st (run st documents).
Proof.
  revert st. induction documents as [|d rest IH]; intros st Hid; [done|].
  rewrite fmap_cons in Hid. apply not_elem_of_cons in Hid as [Hne Hrest].
  destruct (upsert_other st d id) as (Hds & Hvs & Hns); [done|].
  destruct (IH (upsert st d).2 Hrest) as (Hds' & Hvs' & Hns').
  rewrite run_cons. unfold untouched; simpl.
  rewrite Hds', Hvs', nodes_under_app, Hns, Hns'. done.
Qed.

Lemma upsert_ingested st d : ingested (classify st d) st d (upsert st d).
Proof.
  unfold ingested, upsert, classify.
  destruct (docstore st !! doc_id d) as [old|] eqn:Hold;
    [destruct (decide (old = text d)) as [->|Hne]|]; simpl.
  - done.
  - by rewrite lookup_insert_eq, nodes_under_app, nodes_under_delete_eq,
      nodes_under_nodes_of.
  - by rewrite lookup_insert_eq, nodes_under_app, nodes_under_nodes_of.
Qed.

Lemma ingested_then_untouched s st d r1 r2 :
  ingested s st d r1 → untouched (doc_id d) r1.2 r2 →
  ingested s st d (r1.1 ++ r2.1, r2.2).
Proof.
  intros [Hds Hs] (Hds' & Hvs' & Hns'). split; simpl.
  - by rewrite Hds'.
  - rewrite nodes_under_app, Hns', app_nil_r, Hvs'. done.
Qed.

Lemma untouched_then_ingested s st d r1 r2 :
  untouched (doc_id d) st r1 → ingested s r1.2 d r2 →
  ingested s st d (r1.1 ++ r2.1, r2.2).
Proof.
  intros (Hds & Hvs & Hns) [Hds' Hs]. split; simpl; [done|].
  rewrite nodes_under_app, Hns. simpl. by rewrite <- Hvs.
Qed.

Lemma run_ingested st documents d :
  NoDup (doc_id <$> documents) → d ∈ documents →
  ingested (classify st d) st d (run st documents).
Proof.
  revert st. induction documents as [|h rest IH]; intros st Hnd Hd.
  { by apply elem_of_nil in Hd. }
  rewrite fmap_cons in Hnd. apply NoDup_cons in Hnd as [Hh Hnd].
  rewrite run_cons. apply elem_of_cons in Hd as [->|Hd].
  - apply (ingested_then_untouched _ _ _ (upsert st h)); [apply upsert_ingested|].
    by apply run_other.
  - assert (doc_id h ≠ doc_id d) as Hne.
    { intros Heq. apply Hh. rewrite Heq. by apply list_elem_of_fmap_2. }
    pose proof (upsert_other st h (doc_id d) Hne) as Hun.
    apply (untouched_then_ingested _ _ _ (upsert st h)); [done|].
    rewrite <- (classify_frame st (upsert st h).2) by apply Hun.
    by apply IH.
Qed.

Lemma run_all_unmodified st documents :
  (∀ d, d ∈ documents → docstore st !! doc_id d = Some (text d)) →
  run st documents = ([], st).
Proof.
  induction documents as [|d rest IH]; intros Hall; [done|].
  rewrite run_cons, upsert_unmodified by (apply Hall; left).
  cbn [fst snd]. rewrite IH; [done|]. intros d' Hd'. apply Hall. by right.
Qed.

(** Document store and vector store are as the first run left them when the
    same documents are run again. *)
Lemma run_again st0 documents :
  NoDup (doc_id <$> documents) →
  run (run st0 documents).2 documents = ([], (run st0 documents).2).
Proof.
  intros Hnd. apply run_all_unmodified. intros d Hd.
  by destruct (run_ingested st0 documents d Hnd Hd) as [Hds _].
Qed.

(** *** The claims about one document across two runs *)

(** C3: a document whose identifier and content are the same in two
    consecutive runs (identifiers being distinct within each run): the
    second run returns no node of that document, and the nodes stored under
    its identifier, embeddings included, and its document store entry are
    after the second run what they were after the first. *)
Theorem unmodified_document_skipped st0 documents1 documents2 d :
  NoDup (doc_id <$> documents1) → NoDup (doc_id <$> documents2) →
  d ∈ documents1 → d ∈ documents2 →
  let st1 := (run st0 documents1).2 in
  let r2 := run st1 documents2 in
  (∀ n, n ∈ r2.1 → ref_doc_id n ≠ doc_id d) ∧
  nodes_under (doc_id d) (vector_store r2.2)
    = nodes_under (doc_id d) (vector_store st1) ∧
  docstore r2.2 !! doc_id d = docstore st1 !! doc_id d.
Proof.
  intros Hnd1 Hnd2 Hd1 Hd2 st1 r2.
  destruct (run_ingested st0 documents1 d Hnd1 Hd1) as [Hds1 _].
  fold st1 in Hds1.
  pose proof (run_ingested st1 documents2 d Hnd2 Hd2) as Hrun.
  fold r2 in Hrun. unfold classify in Hrun. rewrite Hds1 in Hrun.
  rewrite decide_True in Hrun by done.
  destruct Hrun as (Hds2 & Hns & Hvs).
  split_and!; [by apply nodes_under_nil_iff|done|congruence].
Qed.

(** C2: a document ingested with one content and run again with another
    (identifiers being distinct within each run): after the second run the
    nodes stored under its identifier are exactly the nodes of the new
    content, none of the prior content is left, and the document store holds
    the new content. *)
Theorem modified_document_replaced st0 documents1 documents2 id old new :
  NoDup (doc_id <$> documents1) → NoDup (doc_id <$> documents2) →
  {| doc_id := id; text := old |} ∈ documents1 →
  {| doc_id := id; text := new |} ∈ documents2 →
  old ≠ new →
  let st1 := (run st0 documents1).2 in
  let r2 := run st1 documents2 in
  nodes_under id (vector_store r2.2) = nodes_of {| doc_id := id; text := new |} ∧
  nodes_under id r2.1 = nodes_of {| doc_id := id; text := new |} ∧
  docstore r2.2 !! id = Some new.
Proof.
  intros Hnd1 Hnd2 Hd1 Hd2 Hne st1 r2.
  destruct (run_ingested st0 documents1 _ Hnd1 Hd1) as [Hds1 _].
  fold st1 in Hds1. simpl in Hds1.
  pose proof (run_ingested st1 documents2 _ Hnd2 Hd2) as Hrun.
  fold r2 in Hrun. unfold classify in Hrun. simpl in Hrun.
  rewrite Hds1 in Hrun. rewrite decide_False in Hrun by done.
  destruct Hrun as (Hds2 & Hns & Hvs). done.
Qed.

End Pipeline.

(** The notebook's directory, first as seeded and then after
    [echo ... > test3.txt] and [echo ... > test1.txt]; [echo] ends the text
    with a line feed. *)
Definition file_one : string := "This is a test file: one!" +:+ PyStr.newline.
Definition file_two : string := "This is a test file: two!" +:+ PyStr.newline.
Definition file_three : string := "This is a test file: three!" +:+ PyStr.newline.
Definition file_one_new : string := "This is a NEW test file: one!" +:+ PyStr.newline.

Definition seed_data : Directory :=
  {[ "test1.txt" := file_one; "test2.txt" := file_two ]}.

Definition updated_data : Directory :=
  <[ "test1.txt" := file_one_new ]> (<[ "test3.txt" := file_three ]> seed_data).

(** The documents of the two loads. *)
Definition doc_one : Document := {| doc_id := "test1.txt"; text := file_one |}.
Definition doc_two : Document := {| doc_id := "test2.txt"; text := file_two |}.
Definition doc_three : Document := {| doc_id := "test3.txt"; text := file_three |}.
Definition doc_one_new : Document :=
  {| doc_id := "test1.txt"; text := file_one_new |}.

(** *** The reader's identifiers *)

Lemma load_data_ids fresh dir :
  doc_id <$> load_data true fresh dir = (map_to_list dir).*1.
Proof. unfold load_data. by rewrite fmap_imap, <- imap_const. Qed.

Lemma load_data_NoDup fresh dir : NoDup (doc_id <$> load_data true fresh dir).
Proof. rewrite load_data_ids. apply NoDup_fst_map_to_list. Qed.

Lemma file_names_dom (dir1 dir2 : Directory) :
  dom dir1 = dom dir2 → (map_to_list dir1).*1 = (map_to_list dir2).*1.
Proof.
  intros Hdom.
  assert (∀ k, is_Some (dir1 !! k) ↔ is_Some (dir2 !! k)) as Hk.
  { intros k. by rewrite <- !elem_of_dom, Hdom. }
  rewrite <- (fst_map_zip dir1 dir2) at 1 by (intros k; apply Hk).
  rewrite <- (snd_map_zip dir1 dir2) at 2 by (intros k; apply Hk).
  rewrite !map_to_list_fmap, <- !list_fmap_compose.
  apply list_fmap_ext. by intros [].
Qed.

(** *** The notebook's two runs *)

Lemma load_seed_data fresh : load_data true fresh seed_data = [doc_one; doc_two].
Proof. by vm_compute. Qed.

Lemma load_updated_data fresh :
  load_data true fresh updated_data = [doc_three; doc_one_new; doc_two].
Proof. by vm_compute. Qed.

Ltac lookup_docstore :=
  cbn [docstore doc_id text fst snd]; vm_compute;
  first [reflexivity | by intros [=]].

Section Runs.
Context {Vec : Type}.
Variable split_text : string → list string.
Variable embed : string → Vec.

Let nodes := nodes_of split_text embed.

(** The first run ingests both files. *)
Lemma first_run :
  run split_text embed empty_stores [doc_one; doc_two] =
    (nodes doc_one ++ nodes doc_two,
     {| docstore := <["test2.txt" := file_two]> (<["test1.txt" := file_one]> ∅);
        vector_store := nodes doc_one ++ nodes doc_two |}).
Proof.
  rewrite run_cons, upsert_added by lookup_docstore.
  cbn [fst snd docstore vector_store].
  rewrite run_cons, upsert_added by lookup_docstore.
  cbn [fst snd run docstore vector_store].
  by rewrite app_nil_r.
Qed.

(** The second run ingests the new file and the modified one, whose prior
    nodes go; the unmodified file is skipped. *)
Lemma second_run :
  run split_text embed
      (run split_text embed empty_stores [doc_one; doc_two]).2
      [doc_three; doc_one_new; doc_two] =
    (nodes doc_three ++ nodes doc_one_new,
     {| docstore :=
          <["test1.txt" := file_one_new]>
            (<["test3.txt" := file_three]>
               (<["test2.txt" := file_two]> (<["test1.txt" := file_one]> ∅)));
        vector_store := nodes doc_two ++ nodes doc_three ++ nodes doc_one_new |}).
Proof.
  rewrite first_run. unfold nodes. cbn [fst snd docstore vector_store].
  rewrite run_cons, upsert_added by lookup_docstore.
  cbn [fst snd docstore vector_store].
  rewrite run_cons, (upsert_modified _ _ _ doc_one_new file_one)
    by lookup_docstore.
  cbn [fst snd docstore vector_store].
  rewrite run_cons, upsert_unmodified by lookup_docstore.
  cbn [fst snd run docstore vector_store].
  rewrite !app_nil_r, !delete_ref_doc_app.
  change (doc_id doc_one_new) with (doc_id doc_one).
  rewrite (delete_ref_doc_nodes_of _ _ doc_one).
  rewrite !delete_ref_doc_nodes_of_ne by (by intros [=]).
  by rewrite <- app_assoc.
Qed.

(** C1: the notebook's scenario.  The pipeline runs on the seeded directory
    from empty stores, then on the directory with [test1.txt] modified,
    [test2.txt] unmodified and [test3.txt] added.  With one chunk for each
    file's text, each run ingests two nodes and the index holds three nodes
    after the second run, not the five that the first run's nodes and all the
    second load's nodes would make. *)
Theorem rerun_indexes_three_nodes fresh1 fresh2 :
  (∀ t, t ∈ [file_one; file_two; file_three; file_one_new] →
        length (split_text t) = 1) →
  let documents1 := load_data true fresh1 seed_data in
  let r1 := run split_text embed empty_stores documents1 in
  let documents2 := load_data true fresh2 updated_data in
  let r2 := run split_text embed r1.2 documents2 in
  length r1.1 = 2 ∧ length r2.1 = 2 ∧
  length (vector_store r2.2) = 3 ∧
  length (vector_store r1.2) + length (documents2 ≫= nodes) = 5.
Proof.
  intros Hone documents1 r1 documents2 r2.
  assert (length (split_text file_one) = 1) as H1 by (apply Hone; set_solver).
  assert (length (split_text file_two) = 1) as H2 by (apply Hone; set_solver).
  assert (length (split_text file_three) = 1) as H3 by (apply Hone; set_solver).
  assert (length (split_text file_one_new) = 1) as H4 by (apply Hone; set_solver).
  subst r2 r1 documents1 documents2.
  rewrite load_seed_data, load_updated_data, second_run, first_run.
  unfold nodes. cbn [fst snd vector_store mbind list_bind].
  rewrite !length_app, !length_nodes_of.
  cbn [text doc_one doc_two doc_three doc_one_new].
  rewrite H1, H2, H3, H4. repeat split; reflexivity.
Qed.

End Runs.

(** The theorems at the notebook's documents, with a splitter that keeps a
    text whole and the length of a text for its embedding. *)
Definition whole_text (t : string) : list string := [t].

Lemma NoDup_first_load : NoDup (doc_id <$> [doc_one; doc_two]).
Proof. apply (bool_decide_unpack _). by vm_compute. Qed.

Lemma NoDup_second_load : NoDup (doc_id <$> [doc_three; doc_one_new; doc_two]).
Proof. apply (bool_decide_unpack _). by vm_compute. Qed.

Lemma rerun_indexes_three_nodes_witness :
  (∀ t, t ∈ [file_one; file_two; file_three; file_one_new] →
        length (whole_text t) = 1) ∧
  length (vector_store
            (run whole_text String.length
               (run whole_text String.length empty_stores
                  (load_data true (λ _, "") seed_data)).2
               (load_data true (λ _, "") updated_data)).2) = 3.
Proof.
  assert (∀ t, t ∈ [file_one; file_two; file_three; file_one_new] →
               length (whole_text t) = 1) as Hone by reflexivity.
  split; [exact Hone|].
  exact (proj1 (proj2 (proj2
    (rerun_indexes_three_nodes whole_text String.length (λ _, "") (λ _, "") Hone)))).
Defined.

Lemma unmodified_document_skipped_witness :
  doc_two ∈ [doc_one; doc_two] ∧
  doc_two ∈ [doc_three; doc_one_new; doc_two] ∧
  nodes_under "test2.txt"
    (vector_store
       (run whole_text String.length
          (run whole_text String.length empty_stores [doc_one; doc_two]).2
          [doc_three; doc_one_new; doc_two]).2)
  = nodes_under "test2.txt"
      (vector_store (run whole_text String.length empty_stores [doc_one; doc_two]).2).
Proof.
  assert (doc_two ∈ [doc_one; doc_two]) as H1 by repeat constructor.
  assert (doc_two ∈ [doc_three; doc_one_new; doc_two]) as H2 by repeat constructor.
  split_and!; [exact H1|exact H2|].
  exact (proj1 (proj2
    (unmodified_document_skipped whole_text String.length empty_stores
       [doc_one; doc_two] [doc_three; doc_one_new; doc_two] doc_two
       NoDup_first_load NoDup_second_load H1 H2))).
Defined.

Lemma modified_document_replaced_witness :
  doc_one ∈ [doc_one; doc_two] ∧
  doc_one_new ∈ [doc_three; doc_one_new; doc_two] ∧
  file_one ≠ file_one_new ∧
  nodes_under "test1.txt"
    (vector_store
       (run whole_text String.length
          (run whole_text String.length empty_stores [doc_one; doc_two]).2
          [doc_three; doc_one_new; doc_two]).2)
  = nodes_of whole_text String.length doc_one_new.
Proof.
  assert (doc_one ∈ [doc_one; doc_two]) as H1 by repeat constructor.
  assert (doc_one_new ∈ [doc_three; doc_one_new; doc_two]) as H2
    by repeat constructor.
  assert (file_one ≠ file_one_new) as Hne by (by intros [=]).
  split_and!; [exact H1|exact H2|exact Hne|].
  exact (proj1
    (modified_document_replaced whole_text String.length empty_stores
       [doc_one; doc_two] [doc_three; doc_one_new; doc_two]
       "test1.txt" file_one file_one_new
       NoDup_first_load NoDup_second_load H1 H2 Hne)).
Defined.

End Ingestion.

(** ** The code cells of the notebooks

    What the repository holds is the three notebooks.  Their code cells are
    listed in order, each as the operations its statements perform in the
    order Python evaluates them; markdown cells and comments are left out.
    The listing follows one rule for every statement:

    - a line starting with [!] is [Shell] with its command (a double quote
      of the command is written as an apostrophe);
    - [import m] and [from m import ...] are [Import m];
    - a call gives the operations of its receiver and of its arguments, and
      then: [Print] for [print] and [display]; [Builtin "len"] for [len];
      [CallLocal] for a function the notebook has defined; [Builtin] for the
      methods [split] and [join] of [str] and [items] of [dict];
      [Instantiate] for a capitalised name or a method of one
      ([X.from_defaults(...)]); [Call] for any other function or method;
    - an f-string with a placeholder gives the operations of its
      placeholders and [Builtin "f-string"]; an arithmetic operator gives
      those of its operands and [Builtin] with the operator;
    - names, literals, attribute and item access and list or dictionary
      displays add no operation of their own;
    - an assignment gives the operations of its right side and [Assign]
      with its target; [x += e] gives [Builtin "+="] and [Assign];
    - an expression statement that ends a cell and is no [print] or
      [display] call gives its operations and [Inspect]: its value, unless
      it is [None], is the cell's output;
    - [for] is [For] with the operations of what it iterates over and of
      its body; [def] is [Def] with the operations of its body (annotations
      and docstring left out); [return] is [Return]; [class] is
      [ClassDef]. *)

Module Notebooks.

#[local] Unset Elimination Schemes.

Inductive op :=
| Shell (command : string)
| Import (module : string)
| Assign (target : string)
| Instantiate (class : string)
| Call (callee : string)
| Print
| Inspect (expression : string)
| Builtin (operation : string)
| For (body : list op)
| Def (name : string) (body : list op)
| CallLocal (name : string)
| Return
| ClassDef (name : string).

#[local] Set Elimination Schemes.

Definition cell := list op.
Definition notebook := list cell.

(** [docs/examples/ingestion/redis_ingestion_pipeline.ipynb] *)
Definition redis_ingestion_pipeline : notebook :=
  [ [Shell "pip install redis"];
    [Shell "docker run -d --name redis-stack -p 6379:6379 -p 8001:8001 redis/redis-stack:latest"];
    [Import "os"; Assign "os.environ['OPENAI_API_KEY']"];
    [Shell "rm -rf test_redis_data"; Shell "mkdir -p test_redis_data";
     Shell "echo 'This is a test file: one!' > test_redis_data/test1.txt";
     Shell "echo 'This is a test file: two!' > test_redis_data/test2.txt"];
    [Import "llama_index"; Instantiate "SimpleDirectoryReader";
     Call "load_data"; Assign "documents"];
    [Import "llama_index.embeddings"; Import "llama_index.ingestion";
     Import "llama_index.ingestion.cache";
     Import "llama_index.storage.docstore";
     Import "llama_index.text_splitter"; Import "llama_index.vector_stores";
     Instantiate "HuggingFaceEmbedding"; Assign "embed_model";
     Instantiate "SentenceSplitter"; Instantiate "RedisDocumentStore";
     Instantiate "RedisVectorStore"; Instantiate "RedisCache";
     Instantiate "IngestionCache"; Instantiate "IngestionPipeline";
     Assign "pipeline"];
    [Call "pipeline.run"; Assign "nodes"; Builtin "len"; Builtin "f-string";
     Print];
    [Import "llama_index"; Instantiate "ServiceContext";
     Assign "service_context"; Instantiate "VectorStoreIndex";
     Assign "index"];
    [Call "index.as_query_engine"; Call "query"; Print];
    [Shell "echo 'This is a test file: three!' > test_redis_data/test3.txt";
     Shell "echo 'This is a NEW test file: one!' > test_redis_data/test1.txt"];
    [Instantiate "SimpleDirectoryReader"; Call "load_data";
     Assign "documents"; Call "pipeline.run"; Assign "nodes"; Builtin "len";
     Builtin "f-string"; Print];
    [Instantiate "VectorStoreIndex"; Assign "index";
     Call "index.as_query_engine"; Call "query"; Assign "response"; Print;
     For [Call "node.get_text"; Print]] ].

(** [docs/examples/query_transformations/query_transform_cookbook.ipynb] *)
Definition query_transform_cookbook : notebook :=
  [ [Import "IPython.display";
     Def "display_prompt_dict" [For [Builtin "dict.items"; Builtin "f-string";
       Assign "text_md"; Instantiate "Markdown"; Print; Call "p.get_template";
       Print; Instantiate "Markdown"; Print]]];
    [Import "llama_index.selectors.llm_selectors";
     Import "llama_index.selectors.pydantic_selectors"];
    [Instantiate "LLMMultiSelector"; Assign "selector"];
    [Import "llama_index.tools.types"; Instantiate "ToolMetadata";
     Instantiate "ToolMetadata"; Instantiate "ToolMetadata";
     Assign "tool_choices"];
    [Call "selector.get_prompts"; CallLocal "display_prompt_dict";
     Inspect "display_prompt_dict(...)"];
    [Call "selector.select"; Assign "selector_result"];
    [Inspect "selector_result.selections"];
    [Import "llama_index.prompts"; Import "llama_index.llms";
     Assign "query_gen_str"; Instantiate "PromptTemplate";
     Assign "query_gen_prompt"; Instantiate "OpenAI"; Assign "llm";
     Def "generate_queries" [Call "llm.predict"; Assign "response";
       Builtin "str.split"; Assign "queries"; Builtin "str.join";
       Assign "queries_str"; Builtin "f-string"; Print; Return]];
    [CallLocal "generate_queries"; Assign "queries"];
    [Inspect "queries"];
    [Import "llama_index.indices.query.query_transform";
     Import "llama_index.llms"];
    [Instantiate "HyDEQueryTransform"; Assign "hyde"; Instantiate "OpenAI";
     Assign "llm"; Call "hyde.run"; Assign "query_bundle"];
    [Inspect "new_query.custom_embedding_strs"];
    [Import "llama_index.question_gen"; Import "llama_index.llms"];
    [Instantiate "OpenAI"; Assign "llm";
     Instantiate "OpenAIQuestionGenerator"; Assign "question_gen"];
    [Call "question_gen.get_prompts"; CallLocal "display_prompt_dict";
     Inspect "display_prompt_dict(...)"];
    [Import "llama_index.tools.types"; Instantiate "ToolMetadata";
     Instantiate "ToolMetadata"; Assign "tool_choices"];
    [Import "llama_index.schema"; Assign "query_str";
     Instantiate "QueryBundle"; Call "question_gen.generate";
     Assign "choices"];
    [Inspect "choices"];
    [Import "llama_index.agent.react.formatter";
     Import "llama_index.agent.react.output_parser";
     Import "llama_index.tools"; Import "llama_index.llms.types"];
    [Def "execute_sql" [Builtin "f-string"; Return];
     Def "add" [Builtin "+"; Return]; Instantiate "FunctionTool";
     Assign "tool1"; Instantiate "FunctionTool"; Assign "tool2";
     Assign "tools"];
    [Instantiate "ReActChatFormatter"; Assign "chat_formatter";
     Instantiate "ReActOutputParser"; Assign "output_parser";
     Instantiate "ChatMessage"; Call "chat_formatter.format";
     Assign "input_msgs"; Inspect "input_msgs"];
    [Instantiate "OpenAI"; Assign "llm"];
    [Call "llm.chat"; Assign "response"];
    [Call "output_parser.parse"; Assign "reasoning_step"];
    [Inspect "reasoning_step.action_input"] ].

(** [docs/examples/vector_stores/CognitiveSearchIndexDemo.ipynb] *)
Definition CognitiveSearchIndexDemo : notebook :=
  [ [Shell "pip install llama-index"];
    [Import "logging"; Import "sys"; Import "IPython.display"];
    [];
    [Import "os"; Import "getpass"; Call "getpass.getpass";
     Assign "os.environ['OPENAI_API_KEY']"; Import "openai";
     Assign "openai.api_key"];
    [Import "azure.search.documents.indexes"; Import "azure.search.documents";
     Import "azure.core.credentials"; Call "getpass.getpass";
     Assign "search_service_name"; Call "getpass.getpass"; Assign "key";
     Instantiate "AzureKeyCredential"; Assign "cognitive_search_credential";
     Builtin "f-string"; Assign "service_endpoint"; Assign "index_name";
     Instantiate "SearchIndexClient"; Assign "index_client";
     Instantiate "SearchClient"; Assign "search_client"];
    [Import "azure.search.documents"; Import "llama_index.vector_stores";
     Import "llama_index.vector_stores.cogsearch"; Assign "metadata_fields";
     Instantiate "CognitiveSearchVectorStore"; Assign "vector_store"];
    [Shell "mkdir -p 'data/paul_graham/'";
     Shell "wget 'https://raw.githubusercontent.com/run-llama/llama_index/main/docs/examples/data/paul_graham/paul_graham_essay.txt' -O 'data/paul_graham/paul_graham_essay.txt'"];
    [Import "llama_index.embeddings"; Import "llama_index";
     Instantiate "OpenAIEmbedding"; Assign "embed_model";
     Instantiate "SimpleDirectoryReader"; Call "load_data";
     Assign "documents"; Instantiate "StorageContext";
     Assign "storage_context"; Instantiate "ServiceContext";
     Assign "service_context"; Instantiate "VectorStoreIndex";
     Assign "index"];
    [Call "index.as_query_engine"; Assign "query_engine";
     Call "query_engine.query"; Assign "response"; Builtin "f-string";
     Instantiate "Markdown"; Print];
    [Call "query_engine.query"; Assign "response"; Builtin "f-string";
     Instantiate "Markdown"; Print];
    [Import "llama_index.vector_stores";
     Import "llama_index.vector_stores.cogsearch"; Assign "index_name";
     Assign "metadata_fields"; Instantiate "CognitiveSearchVectorStore";
     Assign "vector_store"];
    [Import "llama_index.embeddings"; Import "llama_index";
     Instantiate "OpenAIEmbedding"; Assign "embed_model";
     Instantiate "StorageContext"; Assign "storage_context";
     Instantiate "ServiceContext"; Assign "service_context";
     Instantiate "VectorStoreIndex"; Assign "index"];
    [Call "index.as_query_engine"; Assign "query_engine";
     Call "query_engine.query"; Assign "response"; Builtin "f-string";
     Instantiate "Markdown"; Print];
    [Call "query_engine.query"; Assign "response"; Builtin "f-string";
     Instantiate "Markdown"; Print];
    [Import "time"; Call "index.as_query_engine"; Assign "query_engine";
     Call "query_engine.query"; Assign "response"; Call "time.time";
     Assign "start_time"; Assign "token_count";
     For [Print; Builtin "+="; Assign "token_count"]; Call "time.time";
     Builtin "-"; Assign "time_elapsed"; Builtin "/";
     Assign "tokens_per_second"; Builtin "f-string"; Print];
    [Call "query_engine.query"; Assign "response"; Builtin "f-string";
     Instantiate "Markdown"; Print];
    [Import "llama_index"; Instantiate "Document"; Call "index.insert_nodes";
     Inspect "index.insert_nodes(...)"];
    [Call "query_engine.query"; Assign "response"; Builtin "f-string";
     Instantiate "Markdown"; Print];
    [Import "llama_index.schema"; Instantiate "TextNode";
     Instantiate "TextNode"; Instantiate "TextNode"; Assign "nodes"];
    [Call "index.insert_nodes"; Inspect "index.insert_nodes(...)"];
    [Import "llama_index.vector_stores.types"; Instantiate "ExactMatchFilter";
     Instantiate "MetadataFilters"; Assign "filters";
     Call "index.as_retriever"; Assign "retriever"; Call "retriever.retrieve";
     Inspect "retriever.retrieve(...)"];
    [Import "llama_index.vector_stores.types"; Call "index.as_retriever";
     Assign "hybrid_retriever"; Call "hybrid_retriever.retrieve";
     Inspect "hybrid_retriever.retrieve(...)"];
    [Call "index.as_retriever"; Assign "hybrid_retriever";
     Call "hybrid_retriever.retrieve";
     Inspect "hybrid_retriever.retrieve(...)"] ].

Definition repository : list notebook :=
  [redis_ingestion_pipeline; query_transform_cookbook; CognitiveSearchIndexDemo].

(** Use of what is imported, and showing its results: shell commands,
    imports, assignments, instantiations and calls of imported classes and
    functions, printing and inspecting, and loops of these.  Defining a
    function or a class, calling a function of the notebook's own, and the
    operations of Python itself ([Builtin]) are the notebook's own
    computation. *)
Fixpoint library_use (o : op) : bool :=
  match o with
  | Shell _ | Import _ | Assign _ | Instantiate _ | Call _
  | Print | Inspect _ => true
  | For body => forallb library_use body
  | Builtin _ | Def _ _ | CallLocal _ | Return | ClassDef _ => false
  end.

Definition only_library_use (nb : notebook) : bool :=
  forallb (forallb library_use) nb.

(** The operations of a notebook that are its own computation. *)
Definition own_computation (nb : notebook) : list op :=
  List.filter (λ o, negb (library_use o)) (concat nb).

Fixpoint defines_class (o : op) : bool :=
  match o with
  | ClassDef _ => true
  | For body | Def _ body => existsb defines_class body
  | _ => false
  end.

(** The functions a notebook defines, by name. *)
Definition defined_functions (nb : notebook) : list string :=
  concat ((λ o, match o with Def name _ => [name] | _ => [] end) <$> concat nb).

(** *** What the notebooks compute themselves *)

(** The cookbook defines functions of its own. *)
Lemma cookbook_not_only_library_use :
  ¬ (∀ nb, nb ∈ repository → only_library_use nb = true).
Proof.
  intros Hall.
  assert (only_library_use query_transform_cookbook = true) as Hnb.
  { apply Hall. unfold repository. by repeat constructor. }
  by vm_compute in Hnb.
Qed.

(** C7, as amended: every operation of the notebooks' code cells is use of
    what is imported or showing its results, except that
    - the cookbook defines four functions ([display_prompt_dict],
      [generate_queries], [execute_sql], [add]) and calls the first two;
    - texts to show and one service address are formatted with f-strings,
      and the Redis notebook counts the ingested nodes with [len];
    - the Cognitive Search notebook measures a token rate with a counting
      loop, a subtraction and a division.
    No notebook defines a class. *)
Theorem notebooks_own_computation :
  own_computation redis_ingestion_pipeline =
    [ Builtin "len"; Builtin "f-string"; Builtin "len"; Builtin "f-string" ] ∧
  own_computation query_transform_cookbook =
    [ Def "display_prompt_dict"
        [For [Builtin "dict.items"; Builtin "f-string"; Assign "text_md";
              Instantiate "Markdown"; Print; Call "p.get_template"; Print;
              Instantiate "Markdown"; Print]];
      CallLocal "display_prompt_dict";
      Def "generate_queries"
        [Call "llm.predict"; Assign "response"; Builtin "str.split";
         Assign "queries"; Builtin "str.join"; Assign "queries_str";
         Builtin "f-string"; Print; Return];
      CallLocal "generate_queries";
      CallLocal "display_prompt_dict";
      Def "execute_sql" [Builtin "f-string"; Return];
      Def "add" [Builtin "+"; Return] ] ∧
  own_computation CognitiveSearchIndexDemo =
    [ Builtin "f-string"; Builtin "f-string"; Builtin "f-string";
      Builtin "f-string"; Builtin "f-string";
      For [Print; Builtin "+="; Assign "token_count"];
      Builtin "-"; Builtin "/"; Builtin "f-string";
      Builtin "f-string"; Builtin "f-string" ] ∧
  concat (defined_functions <$> repository) =
    ["display_prompt_dict"; "generate_queries"; "execute_sql"; "add"] ∧
  existsb defines_class (concat (concat repository)) = false.
Proof. by vm_compute. Qed.

End Notebooks.

(** ** More on the cookbook's own functions *)

Module QueryLines.
Import PyStr Cookbook.

(** A text of one line: it holds no line feed. *)
Definition single_line (s : string) : Prop := count LF s = 0.

Lemma append_String_sep (sep : ascii) (a b : string) :
  a +:+ String sep EmptyString +:+ b = a +:+ String sep b.
Proof. reflexivity. Qed.

Lemma split_app_sep sep a b :
  split sep (a +:+ String sep b) = split sep a ++ split sep b.
Proof.
  induction a as [|c a IH]; simpl.
  - by rewrite Ascii.eqb_refl.
  - destruct (Ascii.eqb c sep); [by rewrite IH|].
    rewrite IH. by destruct (split_cons sep a) as (p & ps & ->).
Qed.

Lemma split_no_sep sep s : count sep s = 0 → split sep s = [s].
Proof.
  induction s as [|c s IH]; simpl; [done|].
  destruct (Ascii.eqb c sep); [done|]. intros Hs. by rewrite IH.
Qed.

Lemma count_split_pieces sep s : Forall (λ p, count sep p = 0) (split sep s).
Proof.
  induction s as [|c s IH]; simpl.
  - by repeat constructor.
  - destruct (Ascii.eqb c sep) eqn:Hc; [by constructor|].
    destruct (split_cons sep s) as (p & ps & Hs). rewrite Hs in IH |- *.
    apply Forall_cons in IH as [Hp Hps]. constructor; [|done].
    simpl. by rewrite Hc.
Qed.

Lemma split_join sep pieces :
  pieces ≠ [] → Forall (λ p, count sep p = 0) pieces →
  split sep (join (String sep EmptyString) pieces) = pieces.
Proof.
  induction pieces as [|p more IH]; [done|]. intros _ Hall.
  apply Forall_cons in Hall as [Hp Hmore].
  destruct more as [|q more]; [by apply split_no_sep|].
  rewrite join_cons_cons, append_String_sep, split_app_sep.
  by rewrite split_no_sep, IH.
Qed.

(** Every query returned is one line: no element holds a line feed. *)
Theorem generate_queries_single_lines query llm num_queries out :
  Forall single_line (generate_queries query llm num_queries out).1.
Proof. apply count_split_pieces. Qed.

(** The queries of a response made of two texts with a line feed between them
    are the queries of the first followed by the queries of the second.  So a
    response that ends with a line feed gives a last query that is empty, and
    an empty line inside a response gives an empty query: nothing is stripped
    or filtered. *)
Theorem generate_queries_lines_compose query num_queries out (a b : string) :
  (generate_queries query (canned (a +:+ newline +:+ b)) num_queries out).1
    = (generate_queries query (canned a) num_queries out).1
      ++ (generate_queries query (canned b) num_queries out).1 ∧
  (generate_queries query (canned (a +:+ newline)) num_queries out).1
    = (generate_queries query (canned a) num_queries out).1 ++ [""] ∧
  (generate_queries query (canned (a +:+ newline +:+ newline +:+ b))
     num_queries out).1
    = (generate_queries query (canned a) num_queries out).1 ++ [""]
      ++ (generate_queries query (canned b) num_queries out).1.
Proof.
  cbn [generate_queries seq bind print ret fst predict canned].
  unfold newline. rewrite !append_String_sep.
  by rewrite !split_app_sep.
Qed.

(** When the model does put each query on a line of its own, the queries come
    back as they were: for a non-empty list of one-line texts, a response
    that is the texts joined by line feeds gives that list. *)
Theorem generate_queries_of_joined_lines query num_queries out
    (lines : list string) :
  lines ≠ [] → Forall single_line lines →
  (generate_queries query (canned (join newline lines)) num_queries out).1
    = lines.
Proof. intros Hne Hall. by apply split_join. Qed.

Lemma generate_queries_of_joined_lines_witness :
  ["1. first"; ""; "3. third"] ≠ [] ∧
  Forall single_line ["1. first"; ""; "3. third"] ∧
  (generate_queries "q" (canned (join newline ["1. first"; ""; "3. third"]))
     4 "").1 = ["1. first"; ""; "3. third"].
Proof.
  assert (["1. first"; ""; "3. third"] ≠ ([] : list string)) as Hne by done.
  assert (Forall single_line ["1. first"; ""; "3. third"]) as Hall
    by (repeat constructor).
  split_and!; [exact Hne|exact Hall|].
  exact (generate_queries_of_joined_lines "q" 4 "" _ Hne Hall).
Defined.

End QueryLines.

Module QuerySegments.
Import PyStr Cookbook QueryLines.

(** The newline-separated segments of a text, said without [split], [join]
    or [count]: the non-empty list of texts that hold no line feed
    (character 10) and that, with a line feed between each two, make up the
    text.  [String.get] and [String.concat] are the Standard Library's. *)
Definition newline_separated_segments (response : string)
    (segments : list string) : Prop :=
  segments ≠ [] ∧
  (∀ segment, segment ∈ segments →
     ∀ n, String.get n segment ≠ Some "010"%char) ∧
  String.concat (String "010"%char "") segments = response.

(** The number of line feeds of a text, counted on its list of
    characters. *)
Definition line_feeds (response : string) : nat :=
  length (filter (λ c, c = "010"%char) (list_ascii_of_string response)).

Lemma join_concat sep pieces : join sep pieces = String.concat sep pieces.
Proof.
  induction pieces as [|p more IH]; [done|].
  destruct more as [|q more]; [done|].
  rewrite join_cons_cons, IH. done.
Qed.

Lemma count_zero_get c s : count c s = 0 ↔ ∀ n, String.get n s ≠ Some c.
Proof.
  induction s as [|c' s IH]; simpl.
  - split; [by intros _ n|done].
  - destruct (Ascii.eqb_spec c' c) as [->|Hne]; split.
    + done.
    + intros Hget. by destruct (Hget 0).
    + intros Hs [|n]; [by intros [=]|]. by apply IH.
    + intros Hget. apply IH. intros n. apply (Hget (S n)).
Qed.

Lemma count_line_feeds s : count LF s = line_feeds s.
Proof.
  unfold line_feeds. induction s as [|c s IH]; [done|].
  cbn [count list_ascii_of_string]. rewrite filter_cons.
  destruct (Ascii.eqb_spec c LF) as [->|Hne].
  - rewrite decide_True by done. simpl. by rewrite IH.
  - rewrite decide_False by done. by rewrite IH.
Qed.

Lemma split_segments s : newline_separated_segments s (split LF s).
Proof.
  split_and!.
  - apply split_nonempty.
  - intros segment Hin.
    pose proof (count_split_pieces LF s) as Hall.
    rewrite Forall_forall in Hall. by apply (count_zero_get LF), Hall.
  - rewrite <- (join_concat (String LF "")). apply join_split.
Qed.

Lemma segments_unique s segments :
  newline_separated_segments s segments → segments = split LF s.
Proof.
  intros (Hne & Hfree & Hcat).
  rewrite <- Hcat, <- (join_concat (String LF "")).
  symmetry. apply split_join; [done|].
  apply Forall_forall. intros segment Hin.
  by apply (count_zero_get LF), Hfree.
Qed.

(** C9: [generate_queries] returns exactly the newline-separated segments
    of the model's response: the list it returns is non-empty, its elements
    hold no line feed and, joined by line feeds, make up the response, and
    it is the only such list.  Its length is one more than the number of
    line feeds of the response.  [num_queries] reaches the result only
    through what the model answers: a model that answers [r] whatever it is
    asked gives the same list for every [num_queries], an empty answer gives
    the list of one empty string, and a model asked for four queries that
    answers two lines gives two. *)
Theorem generate_queries_returns_segments query llm num_queries out :
  let response := predict llm query_gen_prompt num_queries query in
  let queries := (generate_queries query llm num_queries out).1 in
  newline_separated_segments response queries ∧
  (∀ segments,
     newline_separated_segments response segments → segments = queries) ∧
  length queries = 1 + line_feeds response ∧
  (∀ r n, (generate_queries query (canned r) n out).1
          = (generate_queries query (canned r) num_queries out).1) ∧
  (generate_queries query (canned "") num_queries out).1 = [""] ∧
  (generate_queries query (canned ("1. a" +:+ String "010" "2. b")) 4 out).1
    = ["1. a"; "2. b"].
Proof.
  cbn zeta. cbn [generate_queries seq bind print ret fst]. split_and!.
  - apply split_segments.
  - apply segments_unique.
  - rewrite <- count_line_feeds. apply length_split.
  - done.
  - done.
  - done.
Qed.

End QuerySegments.

Module Tools.
Import PyStr Cookbook.

Lemma substring_all (s : string) : String.substring 0 (String.length s) s = s.
Proof. induction s as [|c s IH]; simpl; [done|]. by rewrite IH. Qed.

Lemma prefix_empty (s : string) : String.prefix "" s = true.
Proof. by destruct s. Qed.

Lemma length_append (a b : string) :
  String.length (a +:+ b) = String.length a + String.length b.
Proof. induction a as [|c a IH]; simpl; [done|]. by rewrite IH. Qed.

(** [execute_sql] hands the statement back untouched behind its nine
    character heading: nothing is trimmed, quoted or cut, so the statement
    is read back from the result and different statements give different
    results. *)
Theorem execute_sql_keeps_statement (sql out : string) :
  let r := (execute_sql sql out).1 in
  String.length r = 9 + String.length sql ∧
  String.prefix "Executed " r = true ∧
  String.substring 9 (String.length sql) r = sql ∧
  (∀ sql' out', (execute_sql sql' out').1 = r → sql' = sql).
Proof.
  cbn [execute_sql ret fst]. split_and!.
  - by rewrite length_append.
  - simpl. apply prefix_empty.
  - simpl. apply substring_all.
  - intros sql' _ Heq. simpl in Heq. by simplify_eq.
Qed.

End Tools.

(** ** The prompt viewer

    The cookbook's first cell defines [display_prompt_dict].  It shows
    through [display] as well as [print], so its output is the list of the
    outputs of a cell, each a text on the standard output stream or a
    displayed Markdown object. *)

Module PromptViewer.
Import PyStr.

Inductive output :=
| Stream (text : string)
| DisplayData (markdown : string).

Definition Nb (A : Type) : Type := list output → A * list output.

Definition ret {A} (a : A) : Nb A := λ out, (a, out).

Definition bind {A B} (m : Nb A) (k : A → Nb B) : Nb B :=
  λ out, let '(a, out') := m out in k a out'.

Definition seq {A B} (m : Nb A) (k : Nb B) : Nb B := bind m (λ _, k).
Infix ">>>" := seq (at level 61, left associativity).

(** [print(s)]. *)
Definition print (s : string) : Nb unit :=
  λ out, (tt, out ++ [Stream (s +:+ newline)]).

(** [display(Markdown(s))]. *)
Definition display_Markdown (s : string) : Nb unit :=
  λ out, (tt, out ++ [DisplayData s]).

(** [for x in xs: body]. *)
Fixpoint for_each {A} (xs : list A) (body : A → Nb unit) : Nb unit :=
  match xs with
  | [] => ret tt
  | x :: rest => body x >>> for_each rest body
  end.

(** A prompt of the library, of which the viewer calls [get_template()]. *)
Record Prompt := { get_template : string }.

(** [prompts_dict.items()]: the entries of a dictionary, in the order of
    their insertion. *)
Definition display_prompt_dict (prompts_dict : list (string * Prompt))
  : Nb unit :=
  for_each prompts_dict (λ '(k, p),
    let text_md := "**Prompt Key**: " +:+ k +:+ "<br>" +:+ "**Text:** <br>" in
    display_Markdown text_md >>>
    print (get_template p) >>>
    display_Markdown "<br><br>").

(** What the viewer shows for one entry. *)
Definition entry_outputs (entry : string * Prompt) : list output :=
  [ DisplayData ("**Prompt Key**: " +:+ entry.1 +:+ "<br>**Text:** <br>");
    Stream (get_template entry.2 +:+ newline);
    DisplayData "<br><br>" ].

Definition streamed (out : list output) : list string :=
  out ≫= λ o, match o with Stream text => [text] | DisplayData _ => [] end.

Lemma streamed_app out1 out2 : streamed (out1 ++ out2) = streamed out1 ++ streamed out2.
Proof. unfold streamed. apply bind_app. Qed.

Lemma display_prompt_dict_cons entry rest out :
  (display_prompt_dict (entry :: rest) out).2
    = (display_prompt_dict rest (out ++ entry_outputs entry)).2.
Proof.
  destruct entry as [k p]. unfold display_prompt_dict.
  cbn [for_each seq bind display_Markdown print]. unfold entry_outputs.
  cbn [fst snd]. by rewrite <- !app_assoc.
Qed.

Lemma display_prompt_dict_outputs prompts_dict out :
  (display_prompt_dict prompts_dict out).2
    = out ++ (prompts_dict ≫= entry_outputs).
Proof.
  revert out. induction prompts_dict as [|entry rest IH]; intros out.
  - by rewrite app_nil_r.
  - rewrite display_prompt_dict_cons, IH, <- app_assoc. done.
Qed.

(** The viewer adds to the cell's output, for each entry in the dictionary's
    order, a Markdown heading with the key, the template on the standard
    output and a Markdown break: three outputs an entry and none for an empty
    dictionary; what was shown before stays.  The texts printed are the
    templates, each with its line feed, and viewing two dictionaries one
    after the other shows what viewing their entries in one dictionary
    does. *)
Theorem display_prompt_dict_shows_entries
    (prompts_dict more : list (string * Prompt)) (out : list output) :
  let shown := (display_prompt_dict prompts_dict out).2 in
  shown = out ++ (prompts_dict ≫= entry_outputs) ∧
  length shown = length out + 3 * length prompts_dict ∧
  streamed shown
    = streamed out ++ ((λ e, get_template e.2 +:+ newline) <$> prompts_dict) ∧
  (display_prompt_dict [] out).2 = out ∧
  (display_prompt_dict (prompts_dict ++ more) out).2
    = (display_prompt_dict more shown).2.
Proof.
  cbn zeta. rewrite !display_prompt_dict_outputs. split_and!.
  - done.
  - rewrite length_app. f_equal.
    induction prompts_dict as [|e rest IH]; [done|].
    cbn [mbind list_bind]. rewrite length_app, IH. simpl. lia.
  - rewrite streamed_app. f_equal.
    induction prompts_dict as [|e rest IH]; [done|].
    cbn [mbind list_bind]. rewrite streamed_app, IH. done.
  - apply app_nil_r.
  - by rewrite bind_app, app_assoc.
Qed.

End PromptViewer.

(** ** The streaming loop of the Cognitive Search notebook

    [docs/examples/vector_stores/CognitiveSearchIndexDemo.ipynb] prints the
    tokens of a streamed response and counts them.  The clock readings and
    the rate computed from them are floating point and are left out. *)

Module Streaming.
Import PyStr Cookbook.

(** [print(token, end="")]: the text alone is appended. *)
Definition write (s : string) : Py unit := λ out, (tt, out +:+ s).

(** [for token in response.response_gen: ...], on the tokens of a stream that
    ends, with [token_count] as it stands when the loop is entered. *)
Fixpoint stream_loop (tokens : list string) (token_count : Z) : Py Z :=
  match tokens with
  | [] => ret token_count
  | token :: rest =>
      write token >>> stream_loop rest (token_count + 1)%Z
  end.

(** [token_count = 0], then the loop. *)
Definition stream_tokens (tokens : list string) : Py Z := stream_loop tokens 0.

Lemma append_assoc (a b c : string) : (a +:+ b) +:+ c = a +:+ (b +:+ c).
Proof.
  induction a as [|x a IH]; [done|]. exact (f_equal (String x) IH).
Qed.

Lemma append_empty_r (a : string) : a +:+ "" = a.
Proof.
  induction a as [|x a IH]; [done|]. exact (f_equal (String x) IH).
Qed.

Lemma concat_cons (token : string) (rest : list string) :
  String.concat "" (token :: rest) = token +:+ String.concat "" rest.
Proof. destruct rest; simpl; [by rewrite append_empty_r|done]. Qed.

Lemma concat_app (tokens more : list string) :
  String.concat "" (tokens ++ more)
    = String.concat "" tokens +:+ String.concat "" more.
Proof.
  induction tokens as [|token rest IH]; [done|].
  change ((token :: rest) ++ more) with (token :: (rest ++ more)).
  by rewrite !concat_cons, IH, append_assoc.
Qed.

Lemma stream_loop_result tokens token_count out :
  stream_loop tokens token_count out
    = ((token_count + Z.of_nat (length tokens))%Z,
       out +:+ String.concat "" tokens).
Proof.
  revert token_count out.
  induction tokens as [|token rest IH]; intros token_count out.
  - simpl. unfold ret. by rewrite Z.add_0_r, append_empty_r.
  - cbn [stream_loop seq bind write]. rewrite IH, concat_cons, append_assoc.
    replace (token_count + 1 + Z.of_nat (length rest))%Z
      with (token_count + Z.of_nat (length (token :: rest)))%Z; [done|].
    cbn [length]. lia.
Qed.

(** The loop counts every token of the stream and prints the tokens one
    after the other with nothing between them and nothing after the last;
    a stream without tokens counts zero and prints nothing, and the count and
    the text of a stream in two parts are those of the parts, added and
    appended. *)
Theorem stream_tokens_counts_and_prints (tokens more : list string)
    (out : string) :
  stream_tokens tokens out
    = (Z.of_nat (length tokens), out +:+ String.concat "" tokens) ∧
  stream_tokens [] out = (0%Z, out) ∧
  stream_tokens (tokens ++ more) out
    = (((stream_tokens tokens out).1
        + (stream_tokens more (stream_tokens tokens out).2).1)%Z,
       (stream_tokens more (stream_tokens tokens out).2).2).
Proof.
  unfold stream_tokens. rewrite !stream_loop_result. cbn [fst snd].
  split_and!; [done|by rewrite append_empty_r|].
  rewrite concat_app, append_assoc, length_app, Nat2Z.inj_add. done.
Qed.

End Streaming.

(** ** The shell cells of the Redis ingestion notebook

    The notebook makes its test data with [rm -rf], [mkdir -p] and
    [echo ... > file].  The state is the directory [test_redis_data]: absent,
    or the content of its files by name. *)

Module TestData.
Import Ingestion.

Abbreviation FS := (option Directory).

(** [rm -rf test_redis_data]: the directory is gone, whether it was there or
    not. *)
Definition rm_rf (fs : FS) : FS := None.

(** [mkdir -p test_redis_data]: an absent directory is made, empty; one that
    is there is left as it is. *)
Definition mkdir_p (fs : FS) : FS :=
  match fs with
  | None => Some ∅
  | Some dir => Some dir
  end.

(** [echo "text" > test_redis_data/file]: the file holds the text and a line
    feed, whatever it held before; in an absent directory the redirection
    fails and nothing is made. *)
Definition echo_to (file text : string) (fs : FS) : FS :=
  match fs with
  | None => None
  | Some dir => Some (<[file := text +:+ PyStr.newline]> dir)
  end.

(** The cell under "Create Seed Data". *)
Definition make_test_data (fs : FS) : FS :=
  echo_to "test2.txt" "This is a test file: two!"
    (echo_to "test1.txt" "This is a test file: one!"
       (mkdir_p (rm_rf fs))).

(** The cell under "Add data and Ingest". *)
Definition add_data (fs : FS) : FS :=
  echo_to "test1.txt" "This is a NEW test file: one!"
    (echo_to "test3.txt" "This is a test file: three!" fs).

Lemma make_test_data_seed (fs : FS) : make_test_data fs = Some seed_data.
Proof.
  unfold make_test_data, rm_rf, mkdir_p, echo_to.
  apply (f_equal (@Some Directory)), map_eq. intros f.
  destruct (decide (f = "test1.txt")) as [->|H1]; [by vm_compute|].
  destruct (decide (f = "test2.txt")) as [->|H2]; [by vm_compute|].
  unfold seed_data. rewrite !lookup_insert_ne by done.
  by rewrite lookup_singleton_ne.
Qed.

(** Whatever was there before, the seed cell leaves the directory with its
    two files and nothing else: the directory the first load reads. *)
Theorem make_test_data_from_any_state (fs : FS) :
  make_test_data fs = Some seed_data ∧
  dom seed_data = ({[ "test1.txt"; "test2.txt" ]} : gset string).
Proof.
  split; [apply make_test_data_seed|].
  unfold seed_data. rewrite dom_insert_L, dom_singleton_L. set_solver.
Qed.

(** The second shell cell writes [test3.txt] and overwrites [test1.txt] and
    leaves every other file as it was; run again it changes nothing; without
    the directory it makes nothing; and after the seed cell it gives the
    directory the second load reads. *)
Theorem add_data_effect (fs : FS) (dir : Directory) :
  (∀ file, add_data (Some dir) ≫= (λ d, d !! file) =
     if decide (file = "test1.txt")
     then Some ("This is a NEW test file: one!" +:+ PyStr.newline)
     else if decide (file = "test3.txt")
     then Some ("This is a test file: three!" +:+ PyStr.newline)
     else dir !! file) ∧
  add_data (add_data fs) = add_data fs ∧
  add_data None = None ∧
  add_data (make_test_data fs) = Some updated_data.
Proof.
  split_and!.
  - intros file. unfold add_data, echo_to. cbn [mbind option_bind].
    destruct (decide (file = "test1.txt")) as [->|H1];
      [by rewrite lookup_insert_eq|].
    rewrite lookup_insert_ne by done.
    destruct (decide (file = "test3.txt")) as [->|H3];
      [by rewrite lookup_insert_eq|].
    by rewrite lookup_insert_ne.
  - destruct fs as [d|]; [|done]. unfold add_data, echo_to.
    apply (f_equal (@Some Directory)), map_eq. intros f.
    destruct (decide (f = "test1.txt")) as [->|H1];
      [by rewrite !lookup_insert_eq|].
    destruct (decide (f = "test3.txt")) as [->|H3].
    + by rewrite !(lookup_insert_ne _ "test1.txt"), !lookup_insert_eq.
    + by rewrite !lookup_insert_ne.
  - done.
  - by rewrite make_test_data_seed.
Qed.

End TestData.

(** ** The names the notebooks read and bind

    A code cell runs its statements in order in the kernel's one name space.
    A statement first reads names (a name no earlier statement has bound and
    that is no builtin raises [NameError], and the cell stops there) and then
    binds names.  Each statement of the three notebooks is listed with the
    names it reads and the names it binds; a shell line reads and binds
    none.  A [def] reads the names of its annotations and binds the function;
    a statement that calls a function of the notebook also reads the names
    the function's body takes from the name space; a [for] statement is
    listed with the names its body reads. *)

Module Names.

Record stmt := st { reads : list string; binds : list string }.

Definition cell := list stmt.
Definition notebook := list cell.

(** The builtins the notebooks read. *)
Definition builtins : gset string := {[ "print"; "len"; "str"; "int" ]}.

Definition redis_ingestion_pipeline : notebook :=
  [ [];
    [];
    [st [] ["os"];
     st ["os"] []];
    [];
    [st [] ["SimpleDirectoryReader"];
     st ["SimpleDirectoryReader"] ["documents"]];
    [st [] ["HuggingFaceEmbedding"];
     st [] ["DocstoreStrategy"; "IngestionPipeline"; "IngestionCache"];
     st [] ["RedisCache"];
     st [] ["RedisDocumentStore"];
     st [] ["SentenceSplitter"];
     st [] ["RedisVectorStore"];
     st ["HuggingFaceEmbedding"] ["embed_model"];
     st ["IngestionPipeline"; "embed_model"; "RedisVectorStore";
         "IngestionCache"; "DocstoreStrategy"; "SentenceSplitter";
         "RedisDocumentStore"; "RedisCache"] ["pipeline"]];
    [st ["pipeline"; "documents"] ["nodes"];
     st ["print"; "len"; "nodes"] []];
    [st [] ["VectorStoreIndex"; "ServiceContext"];
     st ["ServiceContext"; "embed_model"] ["service_context"];
     st ["VectorStoreIndex"; "pipeline"; "service_context"] ["index"]];
    [st ["print"; "index"] []];
    [];
    [st ["SimpleDirectoryReader"] ["documents"];
     st ["pipeline"; "documents"] ["nodes"];
     st ["print"; "len"; "nodes"] []];
    [st ["VectorStoreIndex"; "pipeline"; "service_context"] ["index"];
     st ["index"] ["response"];
     st ["print"; "response"] [];
     st ["response"; "print"] ["node"]] ].

Definition query_transform_cookbook : notebook :=
  [ [st [] ["Markdown"; "display"];
     st [] ["display_prompt_dict"]];
    [st [] ["LLMSingleSelector"; "LLMMultiSelector"];
     st [] ["PydanticMultiSelector"; "PydanticSingleSelector"]];
    [st ["LLMMultiSelector"] ["selector"]];
    [st [] ["ToolMetadata"];
     st ["ToolMetadata"] ["tool_choices"]];
    [st ["display_prompt_dict"; "selector"; "display"; "print";
        "Markdown"] []];
    [st ["tool_choices"; "selector"] ["selector_result"]];
    [st ["selector_result"] []];
    [st [] ["PromptTemplate"];
     st [] ["OpenAI"];
     st [] ["query_gen_str"];
     st ["PromptTemplate"; "query_gen_str"] ["query_gen_prompt"];
     st ["OpenAI"] ["llm"];
     st ["str"; "int"] ["generate_queries"]];
    [st ["generate_queries"; "llm"; "query_gen_prompt"; "print"] ["queries"]];
    [st ["queries"] []];
    [st [] ["HyDEQueryTransform"];
     st [] ["OpenAI"]];
    [st ["HyDEQueryTransform"] ["hyde"];
     st ["OpenAI"] ["llm"];
     st ["hyde"] ["query_bundle"]];
    [st ["new_query"] []];
    [st [] ["LLMQuestionGenerator"; "OpenAIQuestionGenerator"];
     st [] ["OpenAI"]];
    [st ["OpenAI"] ["llm"];
     st ["OpenAIQuestionGenerator"; "llm"] ["question_gen"]];
    [st ["display_prompt_dict"; "question_gen"; "display"; "print";
        "Markdown"] []];
    [st [] ["ToolMetadata"];
     st ["ToolMetadata"] ["tool_choices"]];
    [st [] ["QueryBundle"];
     st [] ["query_str"];
     st ["tool_choices"; "question_gen"; "QueryBundle";
         "query_str"] ["choices"]];
    [st ["choices"] []];
    [st [] ["ReActChatFormatter"];
     st [] ["ReActOutputParser"];
     st [] ["FunctionTool"];
     st [] ["ChatMessage"]];
    [st ["str"] ["execute_sql"];
     st ["int"] ["add"];
     st ["FunctionTool"; "execute_sql"] ["tool1"];
     st ["FunctionTool"; "add"] ["tool2"];
     st ["tool1"; "tool2"] ["tools"]];
    [st ["ReActChatFormatter"] ["chat_formatter"];
     st ["ReActOutputParser"] ["output_parser"];
     st ["tools"; "chat_formatter"; "ChatMessage"] ["input_msgs"];
     st ["input_msgs"] []];
    [st ["OpenAI"] ["llm"]];
    [st ["input_msgs"; "llm"] ["response"]];
    [st ["output_parser"; "response"] ["reasoning_step"]];
    [st ["reasoning_step"] []] ].

Definition CognitiveSearchIndexDemo : notebook :=
  [ [];
    [st [] ["logging"];
     st [] ["sys"];
     st [] ["Markdown"; "display"]];
    [];
    [st [] ["os"];
     st [] ["getpass"];
     st ["os"; "getpass"] [];
     st [] ["openai"];
     st ["openai"; "os"] []];
    [st [] ["SearchIndexClient"];
     st [] ["SearchClient"];
     st [] ["AzureKeyCredential"];
     st ["getpass"] ["search_service_name"];
     st ["getpass"] ["key"];
     st ["AzureKeyCredential"; "key"] ["cognitive_search_credential"];
     st ["search_service_name"] ["service_endpoint"];
     st [] ["index_name"];
     st ["SearchIndexClient"; "service_endpoint";
         "cognitive_search_credential"] ["index_client"];
     st ["SearchClient"; "service_endpoint"; "index_name";
         "cognitive_search_credential"] ["search_client"]];
    [st [] ["SearchClient"];
     st [] ["CognitiveSearchVectorStore"];
     st [] ["IndexManagement"; "MetadataIndexFieldType";
         "CognitiveSearchVectorStore"];
     st ["MetadataIndexFieldType"] ["metadata_fields"];
     st ["CognitiveSearchVectorStore"; "index_client"; "index_name";
         "metadata_fields"; "IndexManagement"] ["vector_store"]];
    [];
    [st [] ["OpenAIEmbedding"];
     st [] ["SimpleDirectoryReader"; "StorageContext"; "ServiceContext";
         "VectorStoreIndex"];
     st ["OpenAIEmbedding"] ["embed_model"];
     st ["SimpleDirectoryReader"] ["documents"];
     st ["StorageContext"; "vector_store"] ["storage_context"];
     st ["ServiceContext"; "embed_model"] ["service_context"];
     st ["documents"; "VectorStoreIndex"; "storage_context";
         "service_context"] ["index"]];
    [st ["index"] ["query_engine"];
     st ["query_engine"] ["response"];
     st ["display"; "Markdown"; "response"] []];
    [st ["query_engine"] ["response"];
     st ["display"; "Markdown"; "response"] []];
    [st [] ["CognitiveSearchVectorStore"];
     st [] ["IndexManagement"; "MetadataIndexFieldType";
         "CognitiveSearchVectorStore"];
     st [] ["index_name"];
     st ["MetadataIndexFieldType"] ["metadata_fields"];
     st ["CognitiveSearchVectorStore"; "search_client"; "metadata_fields";
         "IndexManagement"] ["vector_store"]];
    [st [] ["OpenAIEmbedding"];
     st [] ["SimpleDirectoryReader"; "StorageContext"; "ServiceContext";
         "VectorStoreIndex"];
     st ["OpenAIEmbedding"] ["embed_model"];
     st ["StorageContext"; "vector_store"] ["storage_context"];
     st ["ServiceContext"; "embed_model"] ["service_context"];
     st ["VectorStoreIndex"; "storage_context"; "service_context"] ["index"]];
    [st ["index"] ["query_engine"];
     st ["query_engine"] ["response"];
     st ["display"; "Markdown"; "response"] []];
    [st ["query_engine"] ["response"];
     st ["display"; "Markdown"; "response"] []];
    [st [] ["time"];
     st ["index"] ["query_engine"];
     st ["query_engine"] ["response"];
     st ["time"] ["start_time"];
     st [] ["token_count"];
     st ["response"; "print"; "token_count"] ["token"; "token_count"];
     st ["start_time"; "time"] ["time_elapsed"];
     st ["token_count"; "time_elapsed"] ["tokens_per_second"];
     st ["print"; "tokens_per_second"] []];
    [st ["query_engine"] ["response"];
     st ["display"; "Markdown"; "response"] []];
    [st [] ["Document"];
     st ["index"; "Document"] []];
    [st ["query_engine"] ["response"];
     st ["display"; "Markdown"; "response"] []];
    [st [] ["TextNode"];
     st ["TextNode"] ["nodes"]];
    [st ["nodes"; "index"] []];
    [st [] ["ExactMatchFilter"; "MetadataFilters"];
     st ["MetadataFilters"; "ExactMatchFilter"] ["filters"];
     st ["index"; "filters"] ["retriever"];
     st ["retriever"] []];
    [st [] ["VectorStoreQueryMode"];
     st ["index"; "VectorStoreQueryMode"] ["hybrid_retriever"];
     st ["hybrid_retriever"] []];
    [st ["index"; "VectorStoreQueryMode"] ["hybrid_retriever"];
     st ["hybrid_retriever"] []] ].

Inductive outcome :=
| Completed
| NameError (cell_index : nat) (name : string).

(** One statement: the first name read that is not bound, or the name space
    with the statement's bindings. *)
Definition exec_stmt (env : gset string) (s : stmt) : string + gset string :=
  match List.find (λ x, bool_decide (x ∉ env)) (reads s) with
  | Some x => inl x
  | None => inr (env ∪ list_to_set (binds s))
  end.

(** One cell: its statements in order up to the first error; the bindings
    made before the error stay. *)
Fixpoint exec_cell (env : gset string) (c : cell) : option string * gset string :=
  match c with
  | [] => (None, env)
  | s :: rest =>
      match exec_stmt env s with
      | inl x => (Some x, env)
      | inr env' => exec_cell env' rest
      end
  end.

(** Run all: the cells in order from cell [i] on, stopping at the first
    error. *)
Fixpoint run_from (i : nat) (env : gset string) (nb : notebook) : outcome :=
  match nb with
  | [] => Completed
  | c :: rest =>
      match exec_cell env c with
      | (Some x, _) => NameError i x
      | (None, env') => run_from (S i) env' rest
      end
  end.

Definition run_all (nb : notebook) : outcome := run_from 0 builtins nb.

(** Every cell run in turn, going on after a cell that fails: the cells that
    fail, with the name that is missing. *)
Fixpoint errors_from (i : nat) (env : gset string) (nb : notebook)
  : list (nat * string) :=
  match nb with
  | [] => []
  | c :: rest =>
      match exec_cell env c with
      | (Some x, env') => (i, x) :: errors_from (S i) env' rest
      | (None, env') => errors_from (S i) env' rest
      end
  end.

Definition name_errors (nb : notebook) : list (nat * string) :=
  errors_from 0 builtins nb.

(** A notebook that completes has no failing cell. *)
Lemma run_from_completed i env nb :
  run_from i env nb = Completed → errors_from i env nb = [].
Proof.
  revert i env. induction nb as [|c rest IH]; intros i env; [done|].
  simpl. destruct (exec_cell env c) as [[x|] env']; [done|]. apply IH.
Qed.

(** Run from a fresh kernel, the cookbook stops at its thirteenth code cell,
    which inspects [new_query]: the cell before binds the value of
    [hyde.run] to [query_bundle] and no statement binds [new_query].  It is
    the only cell of the cookbook that fails for a name, and the two other
    notebooks run through without a missing name. *)
Theorem cookbook_reads_unbound_name :
  run_all query_transform_cookbook = NameError 12 "new_query" ∧
  query_transform_cookbook !! 12 = Some [st ["new_query"] []] ∧
  name_errors query_transform_cookbook = [(12, "new_query")] ∧
  run_all redis_ingestion_pipeline = Completed ∧
  run_all CognitiveSearchIndexDemo = Completed.
Proof. by vm_compute. Qed.

End Names.
